(** * sqlite_fdw: the type classifier and the foreign-table synthesizer

    A shallow embedding of [src/funcs.c]: [get_affinity__],
    [translate_sqliteType__], [is_sqliteTableRequired],
    [prepare_sqliteQuery], [add_columnDefinition__],
    [get_foreignTableCreationSql] and [get_tableSource], with the C
    library and PostgreSQL routines they call.

    Conventions.
    - A [char const *] is modelled by the contents of the C string it
      points to: the bytes before the terminator, as a [string].
    - [ereport(ERROR, ...)] does not return; a function that may call it
      returns an [outcome], and the callers thread it with [bind].
    - A [StringInfoData] buffer is the text accumulated so far, passed
      in and out of the functions that append to it. *)

From Stdlib Require Import Ascii String ZArith List Bool Lia.
Import ListNotations.

Local Open Scope string_scope.
Local Open Scope Z_scope.

(** ** The C library routines used by [funcs.c] *)

Module LibC.

(** A [char] read as [unsigned char], which is how [strcmp] and
    [strncmp] compare. *)
Definition uchar (c : ascii) : N := N_of_ascii c.

Definition strlen (s : string) : nat := String.length s.

(** [strcmp]: the C standard fixes only the sign of the result, so
    the model returns -1, 0 or 1.  The end of a string is its
    terminator, which is smaller than every byte of a string. *)
Fixpoint strcmp (s1 s2 : string) : Z :=
  match s1, s2 with
  | EmptyString, EmptyString => 0
  | EmptyString, String _ _ => -1
  | String _ _, EmptyString => 1
  | String c1 r1, String c2 r2 =>
      match N.compare (uchar c1) (uchar c2) with
      | Eq => strcmp r1 r2
      | Lt => -1
      | Gt => 1
      end
  end.

(** [strncmp]: as [strcmp], over at most [n] bytes. *)
Fixpoint strncmp (s1 s2 : string) (n : nat) : Z :=
  match n with
  | O => 0
  | S n' =>
      match s1, s2 with
      | EmptyString, EmptyString => 0
      | EmptyString, String _ _ => -1
      | String _ _, EmptyString => 1
      | String c1 r1, String c2 r2 =>
          match N.compare (uchar c1) (uchar c2) with
          | Eq => strncmp r1 r2 n'
          | Lt => -1
          | Gt => 1
          end
      end
  end.

(** Does [needle] occur at the very start of [s]? *)
Fixpoint occurs_at_start (needle s : string) : bool :=
  match needle, s with
  | EmptyString, _ => true
  | String _ _, EmptyString => false
  | String a needle', String b s' =>
      Ascii.eqb a b && occurs_at_start needle' s'
  end.

(** [strstr]: a pointer to the first occurrence of [needle] in
    [haystack], that is the rest of [haystack] from there on, or
    [NULL]. *)
Fixpoint strstr (haystack needle : string) : option string :=
  if occurs_at_start needle haystack then Some haystack
  else match haystack with
       | EmptyString => None
       | String _ rest => strstr rest needle
       end.

(** The truth value of an [int] used as a condition. *)
Definition truthy (z : Z) : bool := negb (z =? 0).

(** [p != NULL]. *)
Definition not_NULL {A : Type} (p : option A) : bool :=
  match p with Some _ => true | None => false end.

End LibC.

(** ** The PostgreSQL routines used by [funcs.c] *)

Module Pg.

(** SQLSTATE codes that [funcs.c] reports. *)
Inductive sqlstate : Set :=
| ERRCODE_FDW_ERROR
| ERRCODE_FDW_OUT_OF_MEMORY
| ERRCODE_FDW_UNABLE_TO_CREATE_EXECUTION
| ERRCODE_SYNTAX_ERROR.

(** What a call comes to: it returns a value, or it leaves through
    [ereport(ERROR, (errcode(..), errmsg(..)))], or it does something
    that neither C nor the libraries define (a read of a variable
    that was never assigned, a read through a released handle), and
    then no result is attributed to it. *)
Inductive outcome (A : Type) : Type :=
| Ret (a : A)
| Ereport (errcode : sqlstate) (errmsg : string)
| Undefined.

Arguments Ret {A} a.
Arguments Ereport {A} errcode errmsg.
Arguments Undefined {A}.

Definition bind {A B : Type} (m : outcome A) (k : A -> outcome B)
  : outcome B :=
  match m with
  | Ret a => k a
  | Ereport c msg => Ereport c msg
  | Undefined => Undefined
  end.

(** [pg_ascii_tolower]: only the bytes 'A'..'Z' change. *)
Definition pg_ascii_tolower (ch : ascii) : ascii :=
  let n := N_of_ascii ch in
  if (65 <=? n)%N && (n <=? 90)%N then ascii_of_N (n + 32) else ch.

(** [pnstrdup(in, len)]: a copy of at most [len] bytes of [in]. *)
Fixpoint pnstrdup (s : string) (len : nat) : string :=
  match len, s with
  | O, _ => EmptyString
  | S _, EmptyString => EmptyString
  | S len', String c rest => String c (pnstrdup rest len')
  end.

Fixpoint lower_each (s : string) : string :=
  match s with
  | EmptyString => EmptyString
  | String c rest => String (pg_ascii_tolower c) (lower_each rest)
  end.

(** [asc_tolower(buff, nbytes)]: copies with [pnstrdup], then lowers
    every byte of the copy in place. *)
Definition asc_tolower (buff : string) (nbytes : nat) : string :=
  lower_each (pnstrdup buff nbytes).

End Pg.

Export LibC Pg.

Notation "x <- m ;; k" := (bind m (fun x => k))
  (at level 61, m at next level, right associativity).

(** ** The type classifier *)

(** [get_affinity__]: the affinity deduction of SQLite, on a type name
    that has been lowered already. *)
Definition get_affinity__ (type : string) : string :=
  if not_NULL (strstr type "int") then "Integer"
  else if not_NULL (strstr type "char") ||
          not_NULL (strstr type "clob") ||
          not_NULL (strstr type "text") then "Text"
  else if not_NULL (strstr type "blob") then "Blob"
  else if not_NULL (strstr type "real") ||
          not_NULL (strstr type "floa") ||
          not_NULL (strstr type "doub") then "Real"
  else "Numeric".

(** [translate_sqliteType__].  The second operand of the [||] is
    [strcmp(type, "date")] used as a truth value, as in the source. *)
Definition translate_sqliteType__ (type : string) : outcome string :=
  let type := asc_tolower type (strlen type + 1) in
  let affinity := get_affinity__ type in
  if strcmp affinity "Text" =? 0 then Ret "text"
  else if strcmp affinity "Integer" =? 0 then Ret "bigint"
  else if strcmp affinity "Real" =? 0 then Ret "double precision"
  else if strcmp affinity "Blob" =? 0 then Ret "bytea"
  else if (strcmp type "timestamp" =? 0) || truthy (strcmp type "date")
       then Ret type
  else if strncmp type "bool" 4 =? 0 then Ret "boolean"
  else Ereport ERRCODE_FDW_ERROR
         ("Could not handle type " ++ type ++ " from a sqlite db").

(** ** The SQLite and PostgreSQL data the synthesizer reads *)

(** One row of [PRAGMA table_info(<table>)], by the columns that
    [add_columnDefinition__] reads: 1 (name, as text), 2 (type, as text,
    or SQL NULL), 3 (notnull, as an int) and 4 (dflt_value, as text, or
    SQL NULL).  [None] is a value whose [sqlite3_column_type] is
    [SQLITE_NULL]. *)
Record table_info_row : Type := {
  ti_name : string;
  ti_type : option string;
  ti_notnull : Z;
  ti_dflt_value : option string
}.

(** A prepared statement is the rows that [sqlite3_step] will still
    yield with [SQLITE_ROW]. *)
Definition sqlite3_stmt : Type := list table_info_row.

(** A column as the [CREATE TABLE] statement of the SQLite table
    declares it; the type and the default are optional there. *)
Record column_def : Type := {
  declared_name : string;
  declared_type : option string;
  declared_not_null : bool;
  declared_default : option string
}.

(** The row that SQLite's [PRAGMA table_info] yields for a declared
    column: the type is always a text, the empty one for a column
    declared without a type; notnull is 0 or 1; the default is SQL
    NULL when the column has none. *)
Definition pragma_table_info (def : column_def) : table_info_row :=
  {| ti_name := declared_name def;
     ti_type :=
       Some (match declared_type def with
             | Some text => text
             | None => EmptyString
             end);
     ti_notnull := if declared_not_null def then 1 else 0;
     ti_dflt_value := declared_default def |}.

(** A database handle: what [sqlite3_prepare_v2] does with a query
    ([None] when it does not answer [SQLITE_OK]), and what
    [sqlite3_errmsg(db)] yields once [sqlite3_close(db)] has been
    called: the text that the handle then holds when SQLite has kept
    it open (it refuses to close a handle with statements that are
    not finalized, and leaves a message of its own), or [None] when
    the handle has been released and there is nothing left to read
    through [db]. *)
Record sqlite3 : Type := {
  sqlite3_prepare_v2 : string -> option sqlite3_stmt;
  errmsg_after_close : option string
}.

(** [ImportForeignSchemaType], [RangeVar] and [ImportForeignSchemaStmt]
    of PostgreSQL's parse nodes, with the fields that [funcs.c] reads. *)
Inductive ImportForeignSchemaType : Set :=
| FDW_IMPORT_SCHEMA_ALL
| FDW_IMPORT_SCHEMA_LIMIT_TO
| FDW_IMPORT_SCHEMA_EXCEPT.

Record RangeVar : Type := { relname : string }.

Record ImportForeignSchemaStmt : Type := {
  server_name : string;
  remote_schema : string;
  local_schema : string;
  list_type : ImportForeignSchemaType;
  table_list : list RangeVar
}.

(** [SqliteTableImportOptions], declared in [sqlite_fdw.h]: the two
    members that [add_columnDefinition__] tests. *)
Record SqliteTableImportOptions : Type := {
  import_notnull : bool;
  import_default : bool
}.

(** The line feed of the C literals. *)
Definition LF : string := String (ascii_of_nat 10) EmptyString.

(** [appendStringInfo(str, fmt, ...)], given the formatted text. *)
Definition appendStringInfo (str text : string) : string := str ++ text.

(** ** The scope filter *)

(** One of the two [foreach] loops of [is_sqliteTableRequired]: it
    returns [hit] from inside the loop at the first entry that
    [strcmp] finds equal to [tablename] ([Some hit]), or runs to the
    end of the list ([None]). *)
Fixpoint foreach_table (hit : bool) (tablename : string)
    (lc : list RangeVar) : option bool :=
  match lc with
  | [] => None
  | rv :: lc' =>
      if strcmp tablename (relname rv) =? 0 then Some hit
      else foreach_table hit tablename lc'
  end.

(** [is_sqliteTableRequired].  The [FDW_IMPORT_SCHEMA_EXCEPT] case has
    no [return] after its loop and falls into [default]. *)
Definition is_sqliteTableRequired (stmt : ImportForeignSchemaStmt)
    (tablename : string) : bool :=
  let default := true in
  match list_type stmt with
  | FDW_IMPORT_SCHEMA_LIMIT_TO =>
      match foreach_table true tablename (table_list stmt) with
      | Some b => b
      | None => false
      end
  | FDW_IMPORT_SCHEMA_EXCEPT =>
      match foreach_table false tablename (table_list stmt) with
      | Some b => b
      | None => default
      end
  | FDW_IMPORT_SCHEMA_ALL => default
  end.

(** ** The synthesizer *)

(** [prepare_sqliteQuery] (the [pzTail] argument is [NULL] at its only
    call).  When the query is not prepared the source calls
    [sqlite3_close(db)] and only then reads [sqlite3_errmsg(db)] for
    the message of its error. *)
Definition prepare_sqliteQuery (db : sqlite3) (query : string)
    : outcome sqlite3_stmt :=
  match sqlite3_prepare_v2 db query with
  | Some stmt => Ret stmt
  | None =>
      match errmsg_after_close db with
      | Some text =>
          Ereport ERRCODE_FDW_UNABLE_TO_CREATE_EXECUTION
            ("SQL error during prepare: " ++ text)
      | None => Undefined
      end
  end.

Section Synthesizer.

(** PostgreSQL's [quote_identifier], owned by the host. *)
Variable quote_identifier : string -> string.

(** [add_columnDefinition__], on the current row of the cursor.  The
    buffer that comes back is the one after all the appends; on
    [Ereport] there is none. *)
Definition add_columnDefinition__ (cftsql : string) (counter : Z)
    (importOpts : SqliteTableImportOptions) (columns : table_info_row)
    : outcome string :=
  let colname := ti_name columns in
  let typename :=
    match ti_type columns with
    | None => "blob"
    | Some text => text
    end in
  let cftsql :=
    if counter >? 0 then appendStringInfo cftsql "," else cftsql in
  let cftsql := appendStringInfo cftsql LF in
  let cftsql := appendStringInfo cftsql (quote_identifier colname ++ " ") in
  target <- translate_sqliteType__ typename ;;
  let cftsql := appendStringInfo cftsql (target ++ " ") in
  let cftsql :=
    if import_notnull importOpts then
      if ti_notnull columns =? 1
      then appendStringInfo cftsql " NOT NULL "
      else cftsql
    else cftsql in
  let cftsql :=
    if import_default importOpts then
      match ti_dflt_value columns with
      | Some dflt => appendStringInfo cftsql (" DEFAULT " ++ dflt ++ " ")
      | None => cftsql
      end
    else cftsql in
  Ret cftsql.

(** The [while (sqlite3_step(columns) == SQLITE_ROW)] loop of
    [get_foreignTableCreationSql], with its [counter++].  SQLite
    limits a table to 32767 columns, so the [int] counter does not
    wrap. *)
Fixpoint step_loop (cftsql : string) (counter : Z)
    (importOptions : SqliteTableImportOptions) (columns : sqlite3_stmt)
    : outcome string :=
  match columns with
  | [] => Ret cftsql
  | row :: columns' =>
      cftsql' <- add_columnDefinition__ cftsql counter importOptions row ;;
      step_loop cftsql' (counter + 1) importOptions columns'
  end.

(** [get_foreignTableCreationSql]: [Ret None] is the [NULL] result.
    An error raised inside [PG_TRY] reaches [PG_CATCH], which frees
    the buffer and the query, tests [columns], finalizes it when it
    is not [NULL], and rethrows.  [columns] is declared without an
    initializer and assigned by the call of [prepare_sqliteQuery]
    only: when that call is the one that raises, [PG_CATCH] tests a
    variable that was never assigned and may hand what it finds to
    [sqlite3_finalize]. *)
Definition get_foreignTableCreationSql (stmt : ImportForeignSchemaStmt)
    (db : sqlite3) (tablename : string)
    (importOptions : SqliteTableImportOptions) : outcome (option string) :=
  if negb (is_sqliteTableRequired stmt tablename) then Ret None
  else
    let cftsql := EmptyString in
    let cftsql :=
      appendStringInfo cftsql
        ("CREATE FOREIGN TABLE " ++ local_schema stmt ++ "." ++
         quote_identifier tablename ++ " (") in
    let columns_q := "PRAGMA table_info(" ++ tablename ++ ")" in
    match prepare_sqliteQuery db columns_q with
    | Ret columns =>
        match step_loop cftsql 0 importOptions columns with
        | Ret cftsql =>
            let cftsql :=
              appendStringInfo cftsql
                (LF ++ ") SERVER " ++ quote_identifier (server_name stmt) ++
                 LF ++ "OPTIONS (table '" ++ quote_identifier tablename ++
                 "')") in
            Ret (Some cftsql)
        | Ereport errcode errmsg => Ereport errcode errmsg
        | Undefined => Undefined
        end
    | Ereport _ _ => Undefined
    | Undefined => Undefined
    end.

End Synthesizer.

(** ** The source of a foreign table *)

(** A [DefElem] of an options list.  The options of a foreign table
    and of a foreign server come from the catalogs as strings, so
    [defGetString] answers the string they hold. *)
Record DefElem : Type := { defname : string; arg : string }.

Definition defGetString (def : DefElem) : string := arg def.

Definition Oid : Type := N.

(** [ForeignTable] and [ForeignServer], with the members that
    [get_tableSource] reads. *)
Record ForeignTable : Type := {
  serverid : Oid;
  table_options : list DefElem
}.

Record ForeignServer : Type := { server_options : list DefElem }.

(** [SqliteTableSource], declared in [sqlite_fdw.h]: two [char *]
    members, [None] for [NULL]. *)
Record SqliteTableSource : Type := {
  database : option string;
  table : option string
}.

(** The catalog lookups of PostgreSQL that [get_tableSource] calls, on
    objects that exist; [get_rel_name] answers [NULL] for a relation
    it does not find. *)
Record pg_catalog : Type := {
  GetForeignTable : Oid -> ForeignTable;
  GetForeignServer : Oid -> ForeignServer;
  get_rel_name : Oid -> option string
}.

(** [list_concat(list1, list2)]: the cells of [list2] after those of
    [list1]. *)
Definition list_concat {A : Type} (list1 list2 : list A) : list A :=
  (list1 ++ list2)%list.

(** [p == NULL], written [!p] in the source. *)
Definition is_NULL {A : Type} (p : option A) : bool := negb (not_NULL p).

(** The body of the [foreach] loop of [get_tableSource]: two [if]s in
    a row, each assigning one member. *)
Definition read_option (opt : SqliteTableSource) (def : DefElem)
    : SqliteTableSource :=
  let opt :=
    if strcmp (defname def) "database" =? 0
    then {| database := Some (defGetString def); table := table opt |}
    else opt in
  let opt :=
    if strcmp (defname def) "table" =? 0
    then {| database := database opt; table := Some (defGetString def) |}
    else opt in
  opt.

Fixpoint foreach_option (lc : list DefElem) (opt : SqliteTableSource)
    : SqliteTableSource :=
  match lc with
  | [] => opt
  | def :: lc' => foreach_option lc' (read_option opt def)
  end.

(** [get_tableSource].  The source declares [opt] without an
    initializer, so its two members start with whatever the stack
    holds: the argument [indeterminate].  *)
Definition get_tableSource (catalog : pg_catalog)
    (indeterminate : SqliteTableSource) (foreigntableid : Oid)
    : outcome SqliteTableSource :=
  let opt := indeterminate in
  let f_table := GetForeignTable catalog foreigntableid in
  let f_server := GetForeignServer catalog (serverid f_table) in
  let options := [] in
  let options := list_concat options (table_options f_table) in
  let options := list_concat options (server_options f_server) in
  let opt := foreach_option options opt in
  let opt :=
    if is_NULL (table opt)
    then {| database := database opt;
            table := get_rel_name catalog foreigntableid |}
    else opt in
  if is_NULL (database opt) || is_NULL (table opt)
  then Ereport ERRCODE_SYNTAX_ERROR
         "a database and a table must be specified"
  else Ret opt.

(** ** Vocabulary of the statements *)

(** [k] occurs somewhere in [s]. *)
Definition contains (k s : string) : Prop :=
  exists pre post, s = pre ++ k ++ post.

(** [k] occurs somewhere in [s] when the case of ASCII letters is
    ignored: some piece of [s] lowers to [k]. *)
Definition contains_ci (k s : string) : Prop :=
  exists pre mid post, s = pre ++ mid ++ post /\ lower_each mid = k.

(** The declaration as [translate_sqliteType__] sees it after
    [asc_tolower]. *)
Definition lowered (declaration : string) : string :=
  asc_tolower declaration (strlen declaration + 1).

(** The affinity of a declaration is Numeric. *)
Definition numeric_affinity (declaration : string) : Prop :=
  get_affinity__ (lowered declaration) = "Numeric".

(** The type name that [add_columnDefinition__] classifies for a row. *)
Definition typename_of (row : table_info_row) : string :=
  match ti_type row with
  | None => "blob"
  | Some text => text
  end.

(** The separator that precedes a column clause. *)
Definition clause_separator (counter : Z) : string :=
  if counter >? 0 then "," ++ LF else LF.

(** The double quote character. *)
Definition DQUOTE : string := String (ascii_of_nat 34) EmptyString.

(** A quoting function in the manner of PostgreSQL's: the name between
    double quotes (used for concrete runs). *)
Definition dquote (name : string) : string := DQUOTE ++ name ++ DQUOTE.

(** The target type in the clause of a row that classifies. *)
Definition target_of (row : table_info_row) : string :=
  match translate_sqliteType__ (typename_of row) with
  | Ret target => target
  | Ereport _ _ => EmptyString
  | Undefined => EmptyString
  end.

(** The clause of one column, with the separator before it. *)
Definition clause_text (q : string -> string)
    (importOpts : SqliteTableImportOptions) (counter : Z)
    (row : table_info_row) : string :=
  clause_separator counter ++ q (ti_name row) ++ " " ++
  target_of row ++ " " ++
  (if import_notnull importOpts && (ti_notnull row =? 1)
   then " NOT NULL " else EmptyString) ++
  (match ti_dflt_value row with
   | Some dflt =>
       if import_default importOpts
       then " DEFAULT " ++ dflt ++ " " else EmptyString
   | None => EmptyString
   end).

(** The clauses of the rows, one after the other in the order of the
    list, the first of them numbered [counter]. *)
Fixpoint column_clauses (q : string -> string)
    (importOpts : SqliteTableImportOptions) (counter : Z)
    (columns : list table_info_row) : string :=
  match columns with
  | [] => EmptyString
  | row :: columns' =>
      clause_text q importOpts counter row ++
      column_clauses q importOpts (counter + 1) columns'
  end.

(** No row of the list has a type name that lowers to [date]. *)
Definition no_date_column (columns : list table_info_row) : Prop :=
  forall row, In row columns -> lowered (typename_of row) <> "date".

(** The value of the last option of the list that is named [key]. *)
Fixpoint last_value (key : string) (options : list DefElem)
    : option string :=
  match options with
  | [] => None
  | def :: rest =>
      match last_value key rest with
      | Some value => Some value
      | None => if String.eqb (defname def) key then Some (arg def) else None
      end
  end.

(** The value in force for [key]: the server's, or else the table's. *)
Definition option_in_force (key : string) (f_table : ForeignTable)
    (f_server : ForeignServer) : option string :=
  match last_value key (server_options f_server) with
  | Some value => Some value
  | None => last_value key (table_options f_table)
  end.

(** A catalog with one foreign table on one server. *)
Definition catalog_of (table_opts server_opts : list DefElem)
    (rel_name : option string) : pg_catalog :=
  {| GetForeignTable := fun _ =>
       {| serverid := 1%N; table_options := table_opts |};
     GetForeignServer := fun _ => {| server_options := server_opts |};
     get_rel_name := fun _ => rel_name |}.

(** ** Concrete inputs *)

(** A row of [PRAGMA table_info]. *)
Definition column (name : string) (type : option string) (notnull : Z)
    (dflt_value : option string) : table_info_row :=
  {| ti_name := name; ti_type := type; ti_notnull := notnull;
     ti_dflt_value := dflt_value |}.

(** A database whose [PRAGMA table_info] answers with [columns]. *)
Definition database_with (columns : sqlite3_stmt) : sqlite3 :=
  {| sqlite3_prepare_v2 := fun _ => Some columns;
     errmsg_after_close := None |}.

(** [IMPORT FOREIGN SCHEMA main ... FROM SERVER <server> INTO <schema>]. *)
Definition import_stmt (schema server : string)
    (filter : ImportForeignSchemaType) (names : list string)
    : ImportForeignSchemaStmt :=
  {| server_name := server;
     remote_schema := "main";
     local_schema := schema;
     list_type := filter;
     table_list := map (fun name => {| relname := name |}) names |}.

(** ** The classifier on some declarations *)

Example translate_integer :
  translate_sqliteType__ "INTEGER" = Ret "bigint".
Proof. reflexivity. Qed.

Example translate_varchar :
  translate_sqliteType__ "VARCHAR(10)" = Ret "text".
Proof. reflexivity. Qed.

Example translate_numeric :
  translate_sqliteType__ "NUMERIC" = Ret "numeric".
Proof. reflexivity. Qed.

Example translate_date :
  translate_sqliteType__ "DATE" =
  Ereport ERRCODE_FDW_ERROR "Could not handle type date from a sqlite db".
Proof. reflexivity. Qed.

(** ** Facts about the C library model *)

Section StringFacts.

Lemma uchar_inj (a b : ascii) : uchar a = uchar b -> a = b.
Proof.
  unfold uchar; intro H.
  rewrite <- (ascii_N_embedding a), <- (ascii_N_embedding b), H.
  reflexivity.
Qed.

Lemma strcmp_refl (s : string) : strcmp s s = 0.
Proof.
  induction s as [|c s IH]; simpl; [reflexivity|].
  rewrite N.compare_refl; exact IH.
Qed.

Lemma strcmp_zero_eq (s t : string) : strcmp s t = 0 -> s = t.
Proof.
  revert t; induction s as [|c s IH]; intros [|d t]; simpl;
    try discriminate; [reflexivity|].
  destruct (N.compare (uchar c) (uchar d)) eqn:E; try discriminate.
  intro H. apply N.compare_eq_iff, uchar_inj in E.
  rewrite E, (IH t H); reflexivity.
Qed.

Lemma strcmp_eqb (s t : string) : (strcmp s t =? 0) = true <-> s = t.
Proof.
  rewrite Z.eqb_eq; split.
  - apply strcmp_zero_eq.
  - intros ->; apply strcmp_refl.
Qed.

Lemma strcmp_eqb_false (s t : string) : (strcmp s t =? 0) = false <-> s <> t.
Proof.
  rewrite <- strcmp_eqb.
  destruct (strcmp s t =? 0); split; intro H; congruence.
Qed.

Lemma occurs_at_start_app (k rest : string) :
  occurs_at_start k (k ++ rest) = true.
Proof.
  induction k as [|a k IH]; simpl.
  - destruct rest; reflexivity.
  - rewrite Ascii.eqb_refl; exact IH.
Qed.

Lemma occurs_at_start_inv (k s : string) :
  occurs_at_start k s = true -> exists rest, s = k ++ rest.
Proof.
  revert s; induction k as [|a k IH]; intros s H.
  - exists s; reflexivity.
  - destruct s as [|b s]; simpl in H; [discriminate|].
    apply andb_true_iff in H; destruct H as [Hab Hk].
    apply Ascii.eqb_eq in Hab; subst b.
    destruct (IH s Hk) as [rest ->].
    exists rest; reflexivity.
Qed.

Lemma strstr_unfold (haystack needle : string) :
  strstr haystack needle =
  if occurs_at_start needle haystack then Some haystack
  else match haystack with
       | EmptyString => None
       | String _ rest => strstr rest needle
       end.
Proof. destruct haystack; reflexivity. Qed.

(** [strstr] answers a pointer exactly when the needle occurs. *)
Lemma strstr_contains (s k : string) :
  not_NULL (strstr s k) = true <-> contains k s.
Proof.
  split.
  - induction s as [|c s IH]; rewrite strstr_unfold;
      destruct (occurs_at_start k _) eqn:E; intro H.
    + apply occurs_at_start_inv in E; destruct E as [rest E].
      exists EmptyString, rest; exact E.
    + discriminate.
    + apply occurs_at_start_inv in E; destruct E as [rest E].
      exists EmptyString, rest; exact E.
    + destruct (IH H) as (pre & post & ->).
      exists (String c pre), post; reflexivity.
  - intros (pre & post & ->).
    induction pre as [|c pre IH]; rewrite strstr_unfold.
    + simpl; rewrite occurs_at_start_app; reflexivity.
    + destruct (occurs_at_start k _); [reflexivity | exact IH].
Qed.

Lemma strstr_absent (s k : string) :
  not_NULL (strstr s k) = false <-> ~ contains k s.
Proof.
  rewrite <- strstr_contains.
  destruct (not_NULL (strstr s k)); split; intro H; congruence.
Qed.

Lemma pnstrdup_whole (s : string) (len : nat) :
  (String.length s <= len)%nat -> pnstrdup s len = s.
Proof.
  revert len; induction s as [|c s IH]; intros [|len] H; simpl in *;
    try reflexivity; try lia.
  rewrite IH by lia; reflexivity.
Qed.

(** The call [asc_tolower(type, strlen(type) + 1)] lowers all of
    [type]. *)
Lemma lowered_eq (declaration : string) :
  lowered declaration = lower_each declaration.
Proof.
  unfold lowered, asc_tolower, strlen.
  rewrite pnstrdup_whole by lia; reflexivity.
Qed.

Lemma lower_each_app (a b : string) :
  lower_each (a ++ b) = lower_each a ++ lower_each b.
Proof.
  induction a as [|c a IH]; simpl; [reflexivity | rewrite IH; reflexivity].
Qed.

(** A case-blind occurrence in the declaration is an occurrence in
    the lowered declaration. *)
Lemma contains_ci_lowered (k declaration : string) :
  contains_ci k declaration -> contains k (lowered declaration).
Proof.
  intros (pre & mid & post & -> & Hmid).
  rewrite lowered_eq, !lower_each_app, Hmid.
  exists (lower_each pre), (lower_each post); reflexivity.
Qed.

End StringFacts.

(** ** The classifier *)

Section Classifier.

Lemma lower_each_split (s a b : string) :
  lower_each s = a ++ b ->
  exists a' b', s = a' ++ b' /\ lower_each a' = a /\ lower_each b' = b.
Proof.
  revert s; induction a as [|c a IH]; intros s H.
  - exists EmptyString, s; repeat split; exact H.
  - destruct s as [|d s]; simpl in H; [discriminate|].
    injection H as Hc Hs.
    destruct (IH s Hs) as (a' & b' & -> & Ha & Hb).
    exists (String d a'), b'; simpl; rewrite Hc, Ha; repeat split; exact Hb.
Qed.

(** The two readings of a case-blind occurrence agree. *)
Lemma contains_lowered_ci (k declaration : string) :
  contains k (lowered declaration) <-> contains_ci k declaration.
Proof.
  split; [|apply contains_ci_lowered].
  rewrite lowered_eq; intros (pre & post & H).
  apply lower_each_split in H; destruct H as (pre' & rest & -> & Hpre & H).
  apply lower_each_split in H; destruct H as (mid & post' & -> & Hmid & _).
  exists pre', mid, post'; split; [reflexivity | exact Hmid].
Qed.

(** The cascade of [get_affinity__], rule by rule: a rule decides only
    when every rule before it has not matched. *)
Lemma get_affinity_cascade (type : string) :
  (contains "int" type -> get_affinity__ type = "Integer") /\
  (~ contains "int" type ->
   contains "char" type \/ contains "clob" type \/ contains "text" type ->
   get_affinity__ type = "Text") /\
  (~ contains "int" type ->
   ~ (contains "char" type \/ contains "clob" type \/ contains "text" type) ->
   contains "blob" type ->
   get_affinity__ type = "Blob") /\
  (~ contains "int" type ->
   ~ (contains "char" type \/ contains "clob" type \/ contains "text" type) ->
   ~ contains "blob" type ->
   contains "real" type \/ contains "floa" type \/ contains "doub" type ->
   get_affinity__ type = "Real") /\
  (~ contains "int" type ->
   ~ (contains "char" type \/ contains "clob" type \/ contains "text" type) ->
   ~ contains "blob" type ->
   ~ (contains "real" type \/ contains "floa" type \/ contains "doub" type) ->
   get_affinity__ type = "Numeric").
Proof.
  unfold get_affinity__.
  destruct (not_NULL (strstr type "int")) eqn:Hint;
  destruct (not_NULL (strstr type "char")) eqn:Hchar;
  destruct (not_NULL (strstr type "clob")) eqn:Hclob;
  destruct (not_NULL (strstr type "text")) eqn:Htext;
  destruct (not_NULL (strstr type "blob")) eqn:Hblob;
  destruct (not_NULL (strstr type "real")) eqn:Hreal;
  destruct (not_NULL (strstr type "floa")) eqn:Hfloa;
  destruct (not_NULL (strstr type "doub")) eqn:Hdoub;
  repeat match goal with
         | H : not_NULL (strstr _ _) = true |- _ => apply strstr_contains in H
         | H : not_NULL (strstr _ _) = false |- _ => apply strstr_absent in H
         end;
  simpl; repeat split; intros; first [reflexivity | exfalso; tauto].
Qed.

(** [translate_sqliteType__] with its [let]s read through [lowered]. *)
Lemma translate_unfold (declaration : string) :
  translate_sqliteType__ declaration =
  let type := lowered declaration in
  let affinity := get_affinity__ type in
  if strcmp affinity "Text" =? 0 then Ret "text"
  else if strcmp affinity "Integer" =? 0 then Ret "bigint"
  else if strcmp affinity "Real" =? 0 then Ret "double precision"
  else if strcmp affinity "Blob" =? 0 then Ret "bytea"
  else if (strcmp type "timestamp" =? 0) || truthy (strcmp type "date")
       then Ret type
  else if strncmp type "bool" 4 =? 0 then Ret "boolean"
  else Ereport ERRCODE_FDW_ERROR
         ("Could not handle type " ++ type ++ " from a sqlite db").
Proof. reflexivity. Qed.

(** The classifier always comes to a return or to its error. *)
Lemma translate_defined (declaration : string) :
  translate_sqliteType__ declaration <> Undefined.
Proof.
  rewrite translate_unfold; cbv zeta.
  repeat match goal with
         | |- context [if ?b then _ else _] => destruct b
         end; discriminate.
Qed.

Lemma translate_Integer (declaration : string) :
  get_affinity__ (lowered declaration) = "Integer" ->
  translate_sqliteType__ declaration = Ret "bigint".
Proof.
  intro H; rewrite translate_unfold; cbv zeta; rewrite H; reflexivity.
Qed.

Lemma translate_Blob (declaration : string) :
  get_affinity__ (lowered declaration) = "Blob" ->
  translate_sqliteType__ declaration = Ret "bytea".
Proof.
  intro H; rewrite translate_unfold; cbv zeta; rewrite H; reflexivity.
Qed.

(** Under the Numeric affinity only the tail of the function is left. *)
Lemma translate_Numeric (declaration : string) :
  numeric_affinity declaration ->
  translate_sqliteType__ declaration =
  let type := lowered declaration in
  if (strcmp type "timestamp" =? 0) || truthy (strcmp type "date")
  then Ret type
  else if strncmp type "bool" 4 =? 0 then Ret "boolean"
  else Ereport ERRCODE_FDW_ERROR
         ("Could not handle type " ++ type ++ " from a sqlite db").
Proof.
  unfold numeric_affinity; intro H.
  rewrite translate_unfold; cbv zeta; rewrite H; reflexivity.
Qed.

(** The condition of the first [if] of the Numeric tail is false for
    one type name only. *)
Lemma first_test_false_iff (type : string) :
  (strcmp type "timestamp" =? 0) || truthy (strcmp type "date") = false
  <-> type = "date".
Proof.
  unfold truthy; split.
  - intro H; apply orb_false_iff in H; destruct H as [_ H].
    apply negb_false_iff, strcmp_eqb in H; exact H.
  - intros ->; reflexivity.
Qed.

Lemma translate_timestamp (declaration : string) :
  lowered declaration = "timestamp" ->
  translate_sqliteType__ declaration = Ret "timestamp".
Proof.
  intro H; rewrite translate_unfold; cbv zeta; rewrite H; reflexivity.
Qed.

(** Every error of the classifier is the one for the type name
    [date]. *)
Lemma translate_error_is_date (declaration : string)
    (errcode : sqlstate) (errmsg : string) :
  translate_sqliteType__ declaration = Ereport errcode errmsg ->
  lowered declaration = "date" /\
  errcode = ERRCODE_FDW_ERROR /\
  errmsg = "Could not handle type date from a sqlite db".
Proof.
  rewrite translate_unfold; cbv zeta.
  repeat match goal with
         | |- context [if ?b then Ret _ else _] =>
             destruct b eqn:?; [discriminate|]
         end.
  match goal with
  | H : _ || _ = false |- _ => apply first_test_false_iff in H; rewrite H
  end.
  intro E; injection E as <- <-; repeat split.
Qed.

End Classifier.

(** ** Statements about the classifier *)

(** Claim C1.  A declaration of Numeric affinity that lowers to
    [timestamp] should classify as timestamp and one that lowers to
    [date] as date.  Run on [date] (and on [DATE]), whose affinity is
    Numeric, the code takes neither [return]: the test
    [strcmp(type, "date")] is false exactly for that name, the prefix
    test fails, and the error is reported. *)
Theorem numeric_date_is_rejected :
  numeric_affinity "date" /\
  lowered "DATE" = "date" /\
  translate_sqliteType__ "date" =
    Ereport ERRCODE_FDW_ERROR "Could not handle type date from a sqlite db" /\
  translate_sqliteType__ "DATE" =
    Ereport ERRCODE_FDW_ERROR "Could not handle type date from a sqlite db" /\
  translate_sqliteType__ "timestamp" = Ret "timestamp".
Proof. repeat split. Qed.

(** Claim C2.  A declaration of Numeric affinity that is neither
    [timestamp] nor [date] and does not begin with [bool] should be
    refused.  Run on [NUMERIC], such a declaration, the code returns
    the lowered name itself as the target type. *)
Theorem numeric_unknown_is_passed_through :
  numeric_affinity "NUMERIC" /\
  lowered "NUMERIC" <> "timestamp" /\
  lowered "NUMERIC" <> "date" /\
  strncmp (lowered "NUMERIC") "bool" 4 <> 0 /\
  translate_sqliteType__ "NUMERIC" = Ret "numeric".
Proof. repeat split; vm_compute; discriminate. Qed.

(** Claim C3.  A declaration of Numeric affinity that begins with
    [bool] should classify as boolean.  Run on [bool] and on [booly],
    which pass the prefix test of the source, the code returns the
    lowered name itself; [boolean] comes back only for the declaration
    that already reads so, and [boo] is returned as it is too. *)
Theorem bool_prefix_is_passed_through :
  numeric_affinity "bool" /\
  strncmp (lowered "bool") "bool" 4 = 0 /\
  translate_sqliteType__ "bool" = Ret "bool" /\
  numeric_affinity "booly" /\
  strncmp (lowered "booly") "bool" 4 = 0 /\
  translate_sqliteType__ "booly" = Ret "booly" /\
  translate_sqliteType__ "boolean" = Ret "boolean" /\
  strncmp (lowered "boo") "bool" 4 <> 0 /\
  translate_sqliteType__ "boo" = Ret "boo".
Proof. repeat split; vm_compute; discriminate. Qed.

(** Claim C4.  A declaration in which [int] occurs anywhere, whatever
    the case of its letters, classifies as bigint, also when keywords
    of later rules occur in it; and the affinity is decided by the
    first rule that matches, in the order int, then char, clob or text,
    then blob, then real, floa or doub, then Numeric. *)
Theorem int_anywhere_is_bigint (declaration : string) :
  (contains_ci "int" declaration ->
   translate_sqliteType__ declaration = Ret "bigint") /\
  let mentions k := contains_ci k declaration in
  let affinity := get_affinity__ (lowered declaration) in
  (mentions "int" -> affinity = "Integer") /\
  (~ mentions "int" ->
   mentions "char" \/ mentions "clob" \/ mentions "text" ->
   affinity = "Text") /\
  (~ mentions "int" ->
   ~ (mentions "char" \/ mentions "clob" \/ mentions "text") ->
   mentions "blob" ->
   affinity = "Blob") /\
  (~ mentions "int" ->
   ~ (mentions "char" \/ mentions "clob" \/ mentions "text") ->
   ~ mentions "blob" ->
   mentions "real" \/ mentions "floa" \/ mentions "doub" ->
   affinity = "Real") /\
  (~ mentions "int" ->
   ~ (mentions "char" \/ mentions "clob" \/ mentions "text") ->
   ~ mentions "blob" ->
   ~ (mentions "real" \/ mentions "floa" \/ mentions "doub") ->
   affinity = "Numeric").
Proof.
  pose proof (get_affinity_cascade (lowered declaration)) as H.
  cbv zeta; rewrite <- !contains_lowered_ci.
  split; [|exact H].
  intro Hint; apply translate_Integer, H, Hint.
Qed.

Lemma int_anywhere_is_bigint_witness :
  contains_ci "int" "integer text" /\
  contains_ci "text" "integer text" /\
  translate_sqliteType__ "integer text" = Ret "bigint".
Proof.
  assert (Hint : contains_ci "int" "integer text").
  { exists EmptyString, "int", "eger text"; split; reflexivity. }
  split; [exact Hint|].
  split.
  - exists "integer ", "text", EmptyString; split; reflexivity.
  - exact (proj1 (int_anywhere_is_bigint "integer text") Hint).
Defined.

(** Claim C10.  For a declaration of Numeric affinity the classifier
    reports its error exactly when the lowered declaration is [date],
    and returns the lowered declaration itself for every other one;
    the first test of the Numeric tail is false for [date] only, so
    the prefix test and the error behind it are reached for that name
    alone. *)
Theorem numeric_raises_only_for_date (declaration : string) :
  numeric_affinity declaration ->
  ((exists errcode errmsg,
      translate_sqliteType__ declaration = Ereport errcode errmsg) <->
   lowered declaration = "date") /\
  (lowered declaration = "date" ->
   translate_sqliteType__ declaration =
   Ereport ERRCODE_FDW_ERROR "Could not handle type date from a sqlite db") /\
  (lowered declaration <> "date" ->
   translate_sqliteType__ declaration = Ret (lowered declaration)) /\
  ((strcmp (lowered declaration) "timestamp" =? 0) ||
   truthy (strcmp (lowered declaration) "date") = false <->
   lowered declaration = "date").
Proof.
  intro Hnum.
  assert (Hdate : lowered declaration = "date" ->
          translate_sqliteType__ declaration =
          Ereport ERRCODE_FDW_ERROR
            "Could not handle type date from a sqlite db").
  { intro H; rewrite (translate_Numeric _ Hnum); cbv zeta; rewrite H.
    reflexivity. }
  repeat split.
  - intros (errcode & errmsg & H).
    apply (translate_error_is_date _ _ _ H).
  - intro H; eexists; eexists; apply Hdate, H.
  - exact Hdate.
  - intro H; rewrite (translate_Numeric _ Hnum); cbv zeta.
    apply strcmp_eqb_false in H; unfold truthy; rewrite H.
    rewrite orb_true_r; reflexivity.
  - apply first_test_false_iff.
  - apply first_test_false_iff.
Qed.

Lemma numeric_raises_only_for_date_witness :
  numeric_affinity "NUMERIC" /\
  translate_sqliteType__ "NUMERIC" = Ret "numeric".
Proof.
  split; [reflexivity|].
  refine (proj1 (proj2 (proj2
            (numeric_raises_only_for_date "NUMERIC" eq_refl))) _).
  vm_compute; discriminate.
Defined.

(** ** The scope filter *)

Section ScopeFilter.

Lemma foreach_table_hit (hit : bool) (tablename : string)
    (lc : list RangeVar) :
  In tablename (map relname lc) -> foreach_table hit tablename lc = Some hit.
Proof.
  induction lc as [|rv lc IH]; simpl; [tauto|].
  destruct (strcmp tablename (relname rv) =? 0) eqn:E; [reflexivity|].
  apply strcmp_eqb_false in E.
  intros [H | H]; [congruence | exact (IH H)].
Qed.

Lemma foreach_table_miss (hit : bool) (tablename : string)
    (lc : list RangeVar) :
  ~ In tablename (map relname lc) -> foreach_table hit tablename lc = None.
Proof.
  induction lc as [|rv lc IH]; simpl; [reflexivity|].
  intro H.
  destruct (strcmp tablename (relname rv) =? 0) eqn:E.
  - apply strcmp_eqb in E; exfalso; apply H; left; congruence.
  - apply IH; tauto.
Qed.

Lemma In_relname_dec (tablename : string) (lc : list RangeVar) :
  {In tablename (map relname lc)} + {~ In tablename (map relname lc)}.
Proof. apply in_dec, string_dec. Qed.

Lemma is_sqliteTableRequired_iff (stmt : ImportForeignSchemaStmt)
    (tablename : string) :
  is_sqliteTableRequired stmt tablename = true <->
  match list_type stmt with
  | FDW_IMPORT_SCHEMA_LIMIT_TO => In tablename (map relname (table_list stmt))
  | FDW_IMPORT_SCHEMA_EXCEPT => ~ In tablename (map relname (table_list stmt))
  | FDW_IMPORT_SCHEMA_ALL => True
  end.
Proof.
  unfold is_sqliteTableRequired.
  destruct (list_type stmt);
    [tauto | |];
    destruct (In_relname_dec tablename (table_list stmt)) as [Hin | Hout].
  - rewrite (foreach_table_hit _ _ _ Hin); tauto.
  - rewrite (foreach_table_miss _ _ _ Hout); split; [discriminate | tauto].
  - rewrite (foreach_table_hit _ _ _ Hin); split; [discriminate | tauto].
  - rewrite (foreach_table_miss _ _ _ Hout); tauto.
Qed.

End ScopeFilter.

(** ** The synthesizer *)

Section SynthesizerFacts.

Lemma string_app_assoc (a b c : string) : (a ++ b) ++ c = a ++ b ++ c.
Proof.
  induction a as [|x a IH]; simpl; [reflexivity | rewrite IH; reflexivity].
Qed.

Lemma string_app_empty_r (a : string) : a ++ EmptyString = a.
Proof.
  induction a as [|x a IH]; simpl; [reflexivity | rewrite IH; reflexivity].
Qed.

(** [add_columnDefinition__] in one piece: the classification of the
    row's type name decides between the error and the buffer with the
    whole clause appended. *)
Lemma add_columnDefinition_eq (q : string -> string)
    (cftsql : string) (counter : Z)
    (importOpts : SqliteTableImportOptions) (row : table_info_row) :
  add_columnDefinition__ q cftsql counter importOpts row =
  target <- translate_sqliteType__ (typename_of row) ;;
  Ret (cftsql ++ clause_separator counter ++ q (ti_name row) ++ " " ++
       target ++ " " ++
       (if import_notnull importOpts && (ti_notnull row =? 1)
        then " NOT NULL " else EmptyString) ++
       (match ti_dflt_value row with
        | Some dflt =>
            if import_default importOpts
            then " DEFAULT " ++ dflt ++ " " else EmptyString
        | None => EmptyString
        end)).
Proof.
  unfold add_columnDefinition__, typename_of, clause_separator,
    appendStringInfo.
  destruct (translate_sqliteType__ _) as [target|errcode errmsg|];
    [|reflexivity|reflexivity].
  unfold bind; f_equal.
  destruct (counter >? 0), (import_notnull importOpts),
    (ti_notnull row =? 1), (import_default importOpts),
    (ti_dflt_value row) as [dflt|];
    cbn [andb];
    repeat rewrite string_app_assoc;
    repeat rewrite string_app_empty_r;
    reflexivity.
Qed.

(** The loop stops with the error of a row whose type name the
    classifier refuses. *)
Lemma step_loop_error (q : string -> string)
    (columns : sqlite3_stmt) (row : table_info_row)
    (errcode : sqlstate) (errmsg : string) :
  In row columns ->
  translate_sqliteType__ (typename_of row) = Ereport errcode errmsg ->
  forall (cftsql : string) (counter : Z)
         (importOptions : SqliteTableImportOptions),
    step_loop q cftsql counter importOptions columns = Ereport errcode errmsg.
Proof.
  intros Hin Hrow.
  destruct (translate_error_is_date _ _ _ Hrow) as (_ & -> & ->).
  induction columns as [|first columns IH]; [contradiction|].
  intros cftsql counter importOptions; simpl.
  rewrite add_columnDefinition_eq.
  destruct (translate_sqliteType__ (typename_of first))
    as [target|errcode errmsg|] eqn:Hfirst.
  - destruct Hin as [-> | Hin]; [congruence|].
    simpl; apply IH, Hin.
  - destruct (translate_error_is_date _ _ _ Hfirst) as (_ & -> & ->).
    reflexivity.
  - exfalso; exact (translate_defined _ Hfirst).
Qed.

(** The column names reach the buffer through [q] only: the loop run
    with [q] is the loop run without quoting on the rows whose names
    have been quoted beforehand. *)
Lemma step_loop_names_through_q (q : string -> string)
    (columns : sqlite3_stmt) :
  forall (cftsql : string) (counter : Z)
         (importOptions : SqliteTableImportOptions),
    step_loop q cftsql counter importOptions columns =
    step_loop (fun name => name) cftsql counter importOptions
      (map (fun row =>
              {| ti_name := q (ti_name row);
                 ti_type := ti_type row;
                 ti_notnull := ti_notnull row;
                 ti_dflt_value := ti_dflt_value row |}) columns).
Proof.
  induction columns as [|row columns IH]; intros; [reflexivity|].
  cbn [step_loop map].
  rewrite !add_columnDefinition_eq.
  unfold typename_of; cbn [ti_name ti_type ti_notnull ti_dflt_value].
  destruct (translate_sqliteType__ _); cbn [bind];
    [apply IH | reflexivity | reflexivity].
Qed.

(** What comes back for a table in scope whose rows all classify: the
    text of the loop between the opening, with the schema as it is and
    the quoted table, and the closing, with the quoted server and the
    quoted table. *)
Lemma statement_envelope (q : string -> string)
    (stmt : ImportForeignSchemaStmt) (db : sqlite3)
    (tablename : string) (importOptions : SqliteTableImportOptions)
    (sql : string) :
  get_foreignTableCreationSql q stmt db tablename importOptions =
    Ret (Some sql) ->
  exists columns body,
    sqlite3_prepare_v2 db ("PRAGMA table_info(" ++ tablename ++ ")") =
      Some columns /\
    step_loop q
      ("CREATE FOREIGN TABLE " ++ local_schema stmt ++ "." ++ q tablename ++
       " (") 0 importOptions columns = Ret body /\
    sql = body ++ LF ++ ") SERVER " ++ q (server_name stmt) ++ LF ++
          "OPTIONS (table '" ++ q tablename ++ "')".
Proof.
  unfold get_foreignTableCreationSql, prepare_sqliteQuery, appendStringInfo.
  destruct (is_sqliteTableRequired stmt tablename); cbn [negb];
    [|discriminate].
  destruct (sqlite3_prepare_v2 db _) as [columns|].
  - destruct (step_loop q _ 0 importOptions columns) as [body| |] eqn:Hloop;
      try discriminate.
    intro H; injection H as <-.
    exists columns, body; repeat split; exact Hloop.
  - destruct (errmsg_after_close db); discriminate.
Qed.

End SynthesizerFacts.

(** ** Statements about the scope filter and the synthesizer *)

(** Claim C5.  The synthesizer answers [NULL], and no error, exactly
    when the scope filter excludes the table; and the filter keeps a
    table under LIMIT TO iff its name is in the list, under EXCEPT iff
    its name is not in the list, and always when there is no list.  An
    empty list therefore excludes every table under LIMIT TO and keeps
    every table under EXCEPT. *)
Theorem absent_iff_out_of_scope (q : string -> string)
    (stmt : ImportForeignSchemaStmt) (db : sqlite3) (tablename : string)
    (importOptions : SqliteTableImportOptions) :
  (get_foreignTableCreationSql q stmt db tablename importOptions = Ret None
   <-> is_sqliteTableRequired stmt tablename = false) /\
  (is_sqliteTableRequired stmt tablename = true <->
   match list_type stmt with
   | FDW_IMPORT_SCHEMA_LIMIT_TO =>
       In tablename (map relname (table_list stmt))
   | FDW_IMPORT_SCHEMA_EXCEPT =>
       ~ In tablename (map relname (table_list stmt))
   | FDW_IMPORT_SCHEMA_ALL => True
   end) /\
  (table_list stmt = [] ->
   is_sqliteTableRequired stmt tablename =
   match list_type stmt with
   | FDW_IMPORT_SCHEMA_LIMIT_TO => false
   | _ => true
   end).
Proof.
  split; [|split].
  - unfold get_foreignTableCreationSql.
    destruct (is_sqliteTableRequired stmt tablename); cbn [negb].
    + destruct (prepare_sqliteQuery _ _) as [columns| |];
        [destruct (step_loop _ _ _ _ _)| |]; split; discriminate.
    + split; reflexivity.
  - apply is_sqliteTableRequired_iff.
  - unfold is_sqliteTableRequired; intros ->.
    destruct (list_type stmt); reflexivity.
Qed.

Lemma absent_iff_out_of_scope_witness :
  is_sqliteTableRequired
    (import_stmt "public" "srv" FDW_IMPORT_SCHEMA_LIMIT_TO []) "t1" = false /\
  get_foreignTableCreationSql dquote
    (import_stmt "public" "srv" FDW_IMPORT_SCHEMA_LIMIT_TO [])
    (database_with []) "t1"
    {| import_notnull := true; import_default := true |} = Ret None.
Proof.
  split; [reflexivity|].
  exact (proj2 (proj1 (absent_iff_out_of_scope dquote
           (import_stmt "public" "srv" FDW_IMPORT_SCHEMA_LIMIT_TO [])
           (database_with []) "t1"
           {| import_notnull := true; import_default := true |})) eq_refl).
Defined.

(** Claim C6.  For a column that classifies, the clause appended to
    the buffer carries the text NOT NULL iff [import_notnull] is set
    and the row's notnull value is 1, and the text DEFAULT followed by
    the default value as SQLite reports it iff [import_default] is set
    and that value is not NULL; each of the two texts is appended
    between blanks, and nothing is added to the default value. *)
Theorem optional_clauses_follow_options (q : string -> string)
    (cftsql : string) (counter : Z)
    (importOpts : SqliteTableImportOptions) (row : table_info_row)
    (target : string) :
  translate_sqliteType__ (typename_of row) = Ret target ->
  add_columnDefinition__ q cftsql counter importOpts row =
  Ret (cftsql ++ clause_separator counter ++ q (ti_name row) ++ " " ++
       target ++ " " ++
       (if import_notnull importOpts && (ti_notnull row =? 1)
        then " NOT NULL " else EmptyString) ++
       (match ti_dflt_value row with
        | Some dflt =>
            if import_default importOpts
            then " DEFAULT " ++ dflt ++ " " else EmptyString
        | None => EmptyString
        end)).
Proof.
  intro H; rewrite add_columnDefinition_eq, H; reflexivity.
Qed.

Lemma optional_clauses_follow_options_witness :
  add_columnDefinition__ dquote "(" 0
    {| import_notnull := false; import_default := true |}
    (column "n" (Some "INTEGER") 1 (Some "0")) =
  Ret ("(" ++ LF ++ dquote "n" ++ " bigint " ++ " DEFAULT 0 ").
Proof.
  exact (optional_clauses_follow_options dquote "(" 0
           {| import_notnull := false; import_default := true |}
           (column "n" (Some "INTEGER") 1 (Some "0")) "bigint" eq_refl).
Defined.

(** The branch of [add_columnDefinition__] for a type that is SQL
    NULL: the type name that is classified is the literal [blob], the
    classifier answers bytea for it, and the column's clause is
    appended with that target type.  [PRAGMA table_info] yields no
    such row. *)
Theorem undeclared_type_is_bytea (q : string -> string)
    (cftsql : string) (counter : Z)
    (importOpts : SqliteTableImportOptions) (row : table_info_row) :
  ti_type row = None ->
  typename_of row = "blob" /\
  translate_sqliteType__ (typename_of row) = Ret "bytea" /\
  add_columnDefinition__ q cftsql counter importOpts row =
  Ret (cftsql ++ clause_separator counter ++ q (ti_name row) ++ " " ++
       "bytea" ++ " " ++
       (if import_notnull importOpts && (ti_notnull row =? 1)
        then " NOT NULL " else EmptyString) ++
       (match ti_dflt_value row with
        | Some dflt =>
            if import_default importOpts
            then " DEFAULT " ++ dflt ++ " " else EmptyString
        | None => EmptyString
        end)).
Proof.
  intro H.
  assert (Hname : typename_of row = "blob")
    by (unfold typename_of; rewrite H; reflexivity).
  assert (Hbytea : translate_sqliteType__ (typename_of row) = Ret "bytea")
    by (rewrite Hname; reflexivity).
  repeat split; [exact Hname | exact Hbytea |].
  rewrite add_columnDefinition_eq, Hbytea; reflexivity.
Qed.

Lemma undeclared_type_is_bytea_witness :
  add_columnDefinition__ dquote "(" 1
    {| import_notnull := true; import_default := true |}
    (column "payload" None 0 None) =
  Ret ("(," ++ LF ++ dquote "payload" ++ " bytea ").
Proof.
  exact (proj2 (proj2 (undeclared_type_is_bytea dquote "(" 1
           {| import_notnull := true; import_default := true |}
           (column "payload" None 0 None) eq_refl))).
Defined.

(** Claim C7.  A column whose declared type is absent should get the
    type name [blob] before classification and so the target type
    bytea.  Run on the table [t] with the one column [a], declared
    without a type: [PRAGMA table_info] reports its type as the empty
    text, not as SQL NULL, so the test for [SQLITE_NULL] does not
    select [blob]; the empty name has the Numeric affinity and is
    returned as it is, and the clause of the column carries no type
    name at all. *)
Theorem undeclared_type_gets_no_type_name :
  let row :=
    pragma_table_info
      {| declared_name := "a"; declared_type := None;
         declared_not_null := false; declared_default := None |} in
  ti_type row = Some EmptyString /\
  numeric_affinity (typename_of row) /\
  translate_sqliteType__ (typename_of row) = Ret EmptyString /\
  get_foreignTableCreationSql dquote
    (import_stmt "s" "srv" FDW_IMPORT_SCHEMA_ALL [])
    (database_with [row]) "t"
    {| import_notnull := true; import_default := true |} =
  Ret (Some ("CREATE FOREIGN TABLE s." ++ dquote "t" ++ " (" ++ LF ++
             dquote "a" ++ " " ++ EmptyString ++ " " ++ LF ++
             ") SERVER " ++ dquote "srv" ++ LF ++
             "OPTIONS (table '" ++ dquote "t" ++ "')")).
Proof. cbv zeta; repeat split. Qed.

(** Claim C8.  Every identifier embedded in the statement should have
    gone through the quoting function.  Run with the schema
    [My Schema], the table [T1], the server [Srv] and the column [Id],
    the code embeds the quoted table, server and column, and the
    schema as it was given, which is not what the quoting function
    makes of it. *)
Theorem schema_name_is_not_quoted :
  get_foreignTableCreationSql dquote
    (import_stmt "My Schema" "Srv" FDW_IMPORT_SCHEMA_ALL [])
    (database_with [column "Id" (Some "INTEGER") 0 None]) "T1"
    {| import_notnull := true; import_default := true |} =
  Ret (Some ("CREATE FOREIGN TABLE " ++ "My Schema" ++ "." ++
             dquote "T1" ++ " (" ++ LF ++
             dquote "Id" ++ " bigint " ++ LF ++
             ") SERVER " ++ dquote "Srv" ++ LF ++
             "OPTIONS (table '" ++ dquote "T1" ++ "')")) /\
  dquote "My Schema" <> "My Schema".
Proof. split; [reflexivity | discriminate]. Qed.

(** Claim C9.  When the classifier refuses the type of any row of a
    table in scope, the call leaves with that error: no statement, and
    no part of one, comes back for the table. *)
Theorem failed_column_aborts_table (q : string -> string)
    (stmt : ImportForeignSchemaStmt) (db : sqlite3) (tablename : string)
    (importOptions : SqliteTableImportOptions)
    (columns : sqlite3_stmt) (row : table_info_row)
    (errcode : sqlstate) (errmsg : string) :
  is_sqliteTableRequired stmt tablename = true ->
  sqlite3_prepare_v2 db ("PRAGMA table_info(" ++ tablename ++ ")") =
    Some columns ->
  In row columns ->
  translate_sqliteType__ (typename_of row) = Ereport errcode errmsg ->
  get_foreignTableCreationSql q stmt db tablename importOptions =
    Ereport errcode errmsg.
Proof.
  intros Hscope Hprepare Hin Hrow.
  unfold get_foreignTableCreationSql, prepare_sqliteQuery.
  rewrite Hscope, Hprepare; cbn [negb].
  rewrite (step_loop_error q columns row errcode errmsg Hin Hrow).
  reflexivity.
Qed.

Lemma failed_column_aborts_table_witness :
  get_foreignTableCreationSql dquote
    (import_stmt "public" "srv" FDW_IMPORT_SCHEMA_ALL [])
    (database_with [column "id" (Some "INTEGER") 1 None;
                    column "born" (Some "DATE") 0 None]) "t1"
    {| import_notnull := true; import_default := true |} =
  Ereport ERRCODE_FDW_ERROR "Could not handle type date from a sqlite db".
Proof.
  apply (failed_column_aborts_table dquote
           (import_stmt "public" "srv" FDW_IMPORT_SCHEMA_ALL [])
           (database_with [column "id" (Some "INTEGER") 1 None;
                           column "born" (Some "DATE") 0 None]) "t1"
           {| import_notnull := true; import_default := true |}
           [column "id" (Some "INTEGER") 1 None;
            column "born" (Some "DATE") 0 None]
           (column "born" (Some "DATE") 0 None)).
  - reflexivity.
  - reflexivity.
  - right; left; reflexivity.
  - reflexivity.
Defined.

(** ** Whole statements *)

(** A table without columns: the statement has an empty column list. *)
Example no_columns :
  get_foreignTableCreationSql dquote
    (import_stmt "s" "srv" FDW_IMPORT_SCHEMA_ALL [])
    (database_with []) "t1"
    {| import_notnull := true; import_default := true |} =
  Ret (Some ("CREATE FOREIGN TABLE s." ++ dquote "t1" ++ " (" ++ LF ++
             ") SERVER " ++ dquote "srv" ++ LF ++
             "OPTIONS (table '" ++ dquote "t1" ++ "')")).
Proof. reflexivity. Qed.

(** Two columns, in the order of the cursor, with both optional
    clauses imported. *)
Example two_columns :
  get_foreignTableCreationSql dquote
    (import_stmt "s" "srv" FDW_IMPORT_SCHEMA_ALL [])
    (database_with [column "id" (Some "INTEGER") 1 None;
                    column "name" (Some "VARCHAR(10)") 0 (Some "'x'")]) "t1"
    {| import_notnull := true; import_default := true |} =
  Ret (Some ("CREATE FOREIGN TABLE s." ++ dquote "t1" ++ " (" ++ LF ++
             dquote "id" ++ " bigint  NOT NULL ," ++ LF ++
             dquote "name" ++ " text  DEFAULT 'x' " ++ LF ++
             ") SERVER " ++ dquote "srv" ++ LF ++
             "OPTIONS (table '" ++ dquote "t1" ++ "')")).
Proof. reflexivity. Qed.

(** ** More about the classifier *)

Section ClassifierRange.

Lemma pg_ascii_tolower_idem (c : ascii) :
  pg_ascii_tolower (pg_ascii_tolower c) = pg_ascii_tolower c.
Proof.
  destruct c as [[] [] [] [] [] [] [] []]; reflexivity.
Qed.

Lemma lower_each_idem (s : string) : lower_each (lower_each s) = lower_each s.
Proof.
  induction s as [|c s IH]; simpl; [reflexivity|].
  rewrite pg_ascii_tolower_idem, IH; reflexivity.
Qed.

Lemma lowered_idem (declaration : string) :
  lowered (lowered declaration) = lowered declaration.
Proof. rewrite !lowered_eq; apply lower_each_idem. Qed.

(** The classifier reads its argument through [lowered] only. *)
Lemma translate_lowered_eq (d1 d2 : string) :
  lowered d1 = lowered d2 ->
  translate_sqliteType__ d1 = translate_sqliteType__ d2.
Proof. intro H; rewrite !translate_unfold, H; reflexivity. Qed.

Lemma translate_Text (declaration : string) :
  get_affinity__ (lowered declaration) = "Text" ->
  translate_sqliteType__ declaration = Ret "text".
Proof.
  intro H; rewrite translate_unfold; cbv zeta; rewrite H; reflexivity.
Qed.

Lemma translate_Real (declaration : string) :
  get_affinity__ (lowered declaration) = "Real" ->
  translate_sqliteType__ declaration = Ret "double precision".
Proof.
  intro H; rewrite translate_unfold; cbv zeta; rewrite H; reflexivity.
Qed.

Lemma contains_ci_dec (k declaration : string) :
  {contains_ci k declaration} + {~ contains_ci k declaration}.
Proof.
  destruct (not_NULL (strstr (lowered declaration) k)) eqn:H.
  - left; apply contains_lowered_ci, strstr_contains, H.
  - right; rewrite <- contains_lowered_ci; apply strstr_absent, H.
Qed.

(** Under the Numeric affinity a returned type is the lowered
    declaration. *)
Lemma numeric_result (declaration target : string) :
  numeric_affinity declaration ->
  translate_sqliteType__ declaration = Ret target ->
  target = lowered declaration /\ target <> "date".
Proof.
  intros Hnum; rewrite (translate_Numeric _ Hnum); cbv zeta.
  destruct (_ || _) eqn:Hfirst.
  - intro H; injection H as <-; split; [reflexivity|].
    intro Hdate; apply first_test_false_iff in Hdate; congruence.
  - apply first_test_false_iff in Hfirst; rewrite Hfirst.
    discriminate.
Qed.

(** The five ways through the classifier, by what the declaration
    mentions. *)
Lemma classify_cases (declaration : string) :
  let mentions k := contains_ci k declaration in
  (mentions "int" /\ translate_sqliteType__ declaration = Ret "bigint") \/
  (~ mentions "int" /\
   (mentions "char" \/ mentions "clob" \/ mentions "text") /\
   translate_sqliteType__ declaration = Ret "text") \/
  (~ mentions "int" /\
   ~ (mentions "char" \/ mentions "clob" \/ mentions "text") /\
   mentions "blob" /\
   translate_sqliteType__ declaration = Ret "bytea") \/
  (~ mentions "int" /\
   ~ (mentions "char" \/ mentions "clob" \/ mentions "text") /\
   ~ mentions "blob" /\
   (mentions "real" \/ mentions "floa" \/ mentions "doub") /\
   translate_sqliteType__ declaration = Ret "double precision") \/
  (~ mentions "int" /\
   ~ (mentions "char" \/ mentions "clob" \/ mentions "text") /\
   ~ mentions "blob" /\
   ~ (mentions "real" \/ mentions "floa" \/ mentions "doub") /\
   numeric_affinity declaration).
Proof.
  cbv zeta.
  pose proof (get_affinity_cascade (lowered declaration)) as H.
  rewrite !contains_lowered_ci in H.
  destruct H as (Hint & Htext & Hblob & Hreal & Hnum).
  destruct (contains_ci_dec "int" declaration) as [Pint | Nint].
  { left; split; [exact Pint | apply translate_Integer, Hint, Pint]. }
  right.
  assert (Dtext : (contains_ci "char" declaration \/
                   contains_ci "clob" declaration \/
                   contains_ci "text" declaration) \/
                  ~ (contains_ci "char" declaration \/
                     contains_ci "clob" declaration \/
                     contains_ci "text" declaration)).
  { destruct (contains_ci_dec "char" declaration),
             (contains_ci_dec "clob" declaration),
             (contains_ci_dec "text" declaration); tauto. }
  destruct Dtext as [Ptext | Ntext].
  { left; repeat split; try assumption.
    apply translate_Text, Htext; assumption. }
  right.
  destruct (contains_ci_dec "blob" declaration) as [Pblob | Nblob].
  { left; repeat split; try assumption.
    apply translate_Blob, Hblob; assumption. }
  right.
  assert (Dreal : (contains_ci "real" declaration \/
                   contains_ci "floa" declaration \/
                   contains_ci "doub" declaration) \/
                  ~ (contains_ci "real" declaration \/
                     contains_ci "floa" declaration \/
                     contains_ci "doub" declaration)).
  { destruct (contains_ci_dec "real" declaration),
             (contains_ci_dec "floa" declaration),
             (contains_ci_dec "doub" declaration); tauto. }
  destruct Dreal as [Preal | Nreal].
  { left; repeat split; try assumption.
    apply translate_Real, Hreal; assumption. }
  right; repeat split; try assumption.
  apply Hnum; assumption.
Qed.

(** A keyword found in a type that the Numeric tail returned is a
    keyword of the declaration. *)
Lemma passthrough_mentions (declaration target k : string) :
  numeric_affinity declaration ->
  translate_sqliteType__ declaration = Ret target ->
  contains k target ->
  contains_ci k declaration.
Proof.
  intros Hnum Hret Hk.
  destruct (numeric_result _ _ Hnum Hret) as [-> _].
  apply contains_lowered_ci, Hk.
Qed.

End ClassifierRange.

(** Property X1.  The classifier answers bigint for the declarations
    that mention [int], whatever the case, and for no other. *)
Theorem bigint_iff_int_keyword (declaration : string) :
  translate_sqliteType__ declaration = Ret "bigint" <->
  contains_ci "int" declaration.
Proof.
  destruct (classify_cases declaration)
    as [[P H] | [(N & _ & H) | [(N & _ & _ & H) | [(N & _ & _ & _ & H)
       | (N & _ & _ & _ & Hnum)]]]];
    split; intro G; try tauto; try (rewrite H in G; discriminate G).
  apply (passthrough_mentions _ _ "int" Hnum G).
  exists "big", EmptyString; reflexivity.
Qed.

(** Property X2.  The classifier answers text exactly for the
    declarations that do not mention [int] and mention one of [char],
    [clob] and [text]. *)
Theorem text_iff_text_keyword (declaration : string) :
  translate_sqliteType__ declaration = Ret "text" <->
  ~ contains_ci "int" declaration /\
  (contains_ci "char" declaration \/ contains_ci "clob" declaration \/
   contains_ci "text" declaration).
Proof.
  destruct (classify_cases declaration)
    as [[P H] | [(N & T & H) | [(N & T & _ & H) | [(N & T & _ & _ & H)
       | (N & T & _ & _ & Hnum)]]]];
    split; intro G; try tauto; try (rewrite H in G; discriminate G).
  exfalso; apply T; right; right.
  apply (passthrough_mentions _ _ "text" Hnum G).
  exists EmptyString, EmptyString; reflexivity.
Qed.

(** Property X3.  The classifier answers double precision exactly for
    the declarations that mention none of [int], [char], [clob], [text]
    and [blob] and mention one of [real], [floa] and [doub]. *)
Theorem double_precision_iff_real_keyword (declaration : string) :
  translate_sqliteType__ declaration = Ret "double precision" <->
  ~ contains_ci "int" declaration /\
  ~ (contains_ci "char" declaration \/ contains_ci "clob" declaration \/
     contains_ci "text" declaration) /\
  ~ contains_ci "blob" declaration /\
  (contains_ci "real" declaration \/ contains_ci "floa" declaration \/
   contains_ci "doub" declaration).
Proof.
  destruct (classify_cases declaration)
    as [[P H] | [(N & T & H) | [(N & T & B & H) | [(N & T & B & R & H)
       | (N & T & B & R & Hnum)]]]];
    split; intro G; try tauto; try (rewrite H in G; discriminate G).
  exfalso; apply R; right; right.
  apply (passthrough_mentions _ _ "doub" Hnum G).
  exists EmptyString, "le precision"; reflexivity.
Qed.

(** Property X4.  The classifier answers bytea for the declarations
    whose first matching keyword is [blob], and besides for the
    declaration that itself lowers to [bytea], which has the Numeric
    affinity and is returned as it is; for no other. *)
Theorem bytea_iff_blob_or_bytea (declaration : string) :
  translate_sqliteType__ declaration = Ret "bytea" <->
  (~ contains_ci "int" declaration /\
   ~ (contains_ci "char" declaration \/ contains_ci "clob" declaration \/
      contains_ci "text" declaration) /\
   contains_ci "blob" declaration) \/
  lowered declaration = "bytea".
Proof.
  split.
  - intro G.
    destruct (classify_cases declaration)
      as [[P H] | [(N & T & H) | [(N & T & B & H) | [(N & T & B & R & H)
         | (N & T & B & R & Hnum)]]]];
      try (rewrite H in G; discriminate G).
    + left; tauto.
    + right; symmetry; apply (numeric_result _ _ Hnum G).
  - intros [(N & T & B) | Hname].
    + destruct (classify_cases declaration)
        as [[P H] | [(_ & T' & H) | [(_ & _ & _ & H) | [(_ & _ & B' & _)
           | (_ & _ & B' & _)]]]]; tauto.
    + rewrite (translate_lowered_eq declaration "bytea") by exact Hname.
      reflexivity.
Qed.

(** Property X5.  A type that the classifier returns is one of text,
    bigint, double precision and bytea, or else it is the lowered
    declaration itself, for a declaration of Numeric affinity that
    does not lower to [date]. *)
Theorem returned_type_range (declaration target : string) :
  translate_sqliteType__ declaration = Ret target ->
  (target = "text" \/ target = "bigint" \/ target = "double precision" \/
   target = "bytea") \/
  (numeric_affinity declaration /\ target = lowered declaration /\
   target <> "date").
Proof.
  intro G.
  destruct (classify_cases declaration)
    as [[_ H] | [(_ & _ & H) | [(_ & _ & _ & H) | [(_ & _ & _ & _ & H)
       | (_ & _ & _ & _ & Hnum)]]]];
    try (rewrite H in G; injection G as <-; tauto).
  right; split; [exact Hnum | apply (numeric_result _ _ Hnum G)].
Qed.

Lemma returned_type_range_witness :
  numeric_affinity "DECIMAL(10,2)" /\
  "decimal(10,2)" = lowered "DECIMAL(10,2)".
Proof.
  destruct (returned_type_range "DECIMAL(10,2)" "decimal(10,2)" eq_refl)
    as [[H | [H | [H | H]]] | (Hnum & Hlow & _)];
    try discriminate H.
  split; [exact Hnum | exact Hlow].
Defined.

(** Property X6.  The classifier never answers the target type date,
    whatever the declaration. *)
Theorem date_is_never_returned (declaration : string) :
  translate_sqliteType__ declaration <> Ret "date".
Proof.
  intro G.
  destruct (classify_cases declaration)
    as [[_ H] | [(_ & _ & H) | [(_ & _ & _ & H) | [(_ & _ & _ & _ & H)
       | (_ & _ & _ & _ & Hnum)]]]];
    try (rewrite H in G; discriminate G).
  destruct (numeric_result _ _ Hnum G) as [_ H]; apply H; reflexivity.
Qed.

(** Property X7.  Two declarations that differ only in the case of
    ASCII letters classify alike, the error included. *)
Theorem classification_is_case_blind (d1 d2 : string) :
  lower_each d1 = lower_each d2 ->
  translate_sqliteType__ d1 = translate_sqliteType__ d2.
Proof.
  intro H; apply translate_lowered_eq; rewrite !lowered_eq; exact H.
Qed.

Lemma classification_is_case_blind_witness :
  translate_sqliteType__ "Double Precision" =
  translate_sqliteType__ "DOUBLE PRECISION".
Proof.
  exact (classification_is_case_blind "Double Precision" "DOUBLE PRECISION"
           eq_refl).
Defined.

(** Property X8.  A type that the classifier returns classifies as
    itself: classifying the answer again changes nothing. *)
Theorem returned_type_is_fixed_point (declaration target : string) :
  translate_sqliteType__ declaration = Ret target ->
  translate_sqliteType__ target = Ret target.
Proof.
  intro G.
  destruct (classify_cases declaration)
    as [[_ H] | [(_ & _ & H) | [(_ & _ & _ & H) | [(_ & _ & _ & _ & H)
       | (_ & _ & _ & _ & Hnum)]]]];
    try (rewrite H in G; injection G as <-; reflexivity).
  destruct (numeric_result _ _ Hnum G) as [-> _].
  rewrite <- G; apply translate_lowered_eq, lowered_idem.
Qed.

Lemma returned_type_is_fixed_point_witness :
  translate_sqliteType__ "varchar(20)" = Ret "text" /\
  translate_sqliteType__ "text" = Ret "text".
Proof.
  split; [reflexivity|].
  exact (returned_type_is_fixed_point "varchar(20)" "text" eq_refl).
Defined.

(** ** More about the scope filter *)

(** Property X9.  With the same list of tables, LIMIT TO and EXCEPT
    are complements: a table is required under the one exactly when
    it is not under the other. *)
Theorem limit_to_and_except_are_complements
    (limit except : ImportForeignSchemaStmt) (tablename : string) :
  list_type limit = FDW_IMPORT_SCHEMA_LIMIT_TO ->
  list_type except = FDW_IMPORT_SCHEMA_EXCEPT ->
  table_list limit = table_list except ->
  is_sqliteTableRequired limit tablename =
  negb (is_sqliteTableRequired except tablename).
Proof.
  intros Hlimit Hexcept Hlist.
  unfold is_sqliteTableRequired; rewrite Hlimit, Hexcept, Hlist.
  destruct (In_relname_dec tablename (table_list except)) as [Hin | Hout].
  - rewrite !(foreach_table_hit _ _ _ Hin); reflexivity.
  - rewrite !(foreach_table_miss _ _ _ Hout); reflexivity.
Qed.

Lemma limit_to_and_except_are_complements_witness :
  is_sqliteTableRequired
    (import_stmt "public" "srv" FDW_IMPORT_SCHEMA_LIMIT_TO ["a"; "b"]) "b" =
  negb (is_sqliteTableRequired
          (import_stmt "public" "srv" FDW_IMPORT_SCHEMA_EXCEPT ["a"; "b"])
          "b").
Proof.
  exact (limit_to_and_except_are_complements
           (import_stmt "public" "srv" FDW_IMPORT_SCHEMA_LIMIT_TO ["a"; "b"])
           (import_stmt "public" "srv" FDW_IMPORT_SCHEMA_EXCEPT ["a"; "b"])
           "b" eq_refl eq_refl eq_refl).
Defined.

(** Property X10.  The filter looks at which names the list holds and
    at nothing else: two statements with the same kind of list and
    the same names in it, in any order and any number of times,
    require the same tables. *)
Theorem filter_reads_the_names_as_a_set
    (stmt1 stmt2 : ImportForeignSchemaStmt) (tablename : string) :
  list_type stmt1 = list_type stmt2 ->
  (forall name, In name (map relname (table_list stmt1)) <->
                In name (map relname (table_list stmt2))) ->
  is_sqliteTableRequired stmt1 tablename =
  is_sqliteTableRequired stmt2 tablename.
Proof.
  intros Htype Hnames.
  pose proof (is_sqliteTableRequired_iff stmt1 tablename) as H1.
  pose proof (is_sqliteTableRequired_iff stmt2 tablename) as H2.
  rewrite Htype in H1; specialize (Hnames tablename).
  destruct (is_sqliteTableRequired stmt1 tablename),
           (is_sqliteTableRequired stmt2 tablename);
    try reflexivity; exfalso;
    destruct (list_type stmt2);
    destruct H1 as [H1 H1']; destruct H2 as [H2 H2'];
    try discriminate (H1' I); try discriminate (H2' I);
    try (discriminate H1'; tauto); try (discriminate H2'; tauto).
Qed.

Lemma filter_reads_the_names_as_a_set_witness :
  is_sqliteTableRequired
    (import_stmt "public" "srv" FDW_IMPORT_SCHEMA_EXCEPT ["a"; "b"; "a"]) "c" =
  is_sqliteTableRequired
    (import_stmt "public" "srv" FDW_IMPORT_SCHEMA_EXCEPT ["b"; "a"]) "c".
Proof.
  apply (filter_reads_the_names_as_a_set
           (import_stmt "public" "srv" FDW_IMPORT_SCHEMA_EXCEPT ["a"; "b"; "a"])
           (import_stmt "public" "srv" FDW_IMPORT_SCHEMA_EXCEPT ["b"; "a"])
           "c" eq_refl).
  intro name; simpl; tauto.
Defined.

(** ** More about the synthesizer *)

Section SynthesizerShape.

Lemma translate_date_name (declaration : string) :
  lowered declaration = "date" ->
  translate_sqliteType__ declaration =
  Ereport ERRCODE_FDW_ERROR "Could not handle type date from a sqlite db".
Proof.
  intro H; rewrite (translate_lowered_eq declaration "date") by exact H.
  reflexivity.
Qed.

Lemma translate_target_of (row : table_info_row) :
  lowered (typename_of row) <> "date" ->
  translate_sqliteType__ (typename_of row) = Ret (target_of row).
Proof.
  intro H; unfold target_of.
  destruct (translate_sqliteType__ (typename_of row)) eqn:E;
    [reflexivity| |].
  - exfalso; apply H, (translate_error_is_date _ _ _ E).
  - exfalso; exact (translate_defined _ E).
Qed.

(** The loop on rows that all classify: the buffer, then the clauses. *)
Lemma step_loop_closed (q : string -> string)
    (importOptions : SqliteTableImportOptions) (columns : sqlite3_stmt) :
  no_date_column columns ->
  forall (cftsql : string) (counter : Z),
    step_loop q cftsql counter importOptions columns =
    Ret (cftsql ++ column_clauses q importOptions counter columns).
Proof.
  induction columns as [|row columns IH]; intros Hall cftsql counter.
  - simpl; rewrite string_app_empty_r; reflexivity.
  - cbn [step_loop column_clauses].
    rewrite add_columnDefinition_eq, translate_target_of
      by (apply Hall; left; reflexivity).
    cbn [bind]; rewrite IH by (intros r Hr; apply Hall; right; exact Hr).
    unfold clause_text; rewrite !string_app_assoc; reflexivity.
Qed.

(** An error of the loop is the error of one of its rows. *)
Lemma step_loop_error_inv (q : string -> string)
    (importOptions : SqliteTableImportOptions) (columns : sqlite3_stmt)
    (errcode : sqlstate) (errmsg : string) :
  forall (cftsql : string) (counter : Z),
    step_loop q cftsql counter importOptions columns =
      Ereport errcode errmsg ->
    exists row, In row columns /\
      translate_sqliteType__ (typename_of row) = Ereport errcode errmsg.
Proof.
  induction columns as [|row columns IH]; intros cftsql counter;
    cbn [step_loop]; [discriminate|].
  rewrite add_columnDefinition_eq.
  destruct (translate_sqliteType__ (typename_of row)) eqn:E; cbn [bind].
  - intro H; destruct (IH _ _ H) as (r & Hin & Hr).
    exists r; split; [right; exact Hin | exact Hr].
  - intro H; exists row; split; [left; reflexivity|].
    rewrite E; exact H.
  - discriminate.
Qed.

Lemma step_loop_ext (q1 q2 : string -> string)
    (importOptions : SqliteTableImportOptions) (columns : sqlite3_stmt) :
  (forall row, In row columns -> q1 (ti_name row) = q2 (ti_name row)) ->
  forall (cftsql : string) (counter : Z),
    step_loop q1 cftsql counter importOptions columns =
    step_loop q2 cftsql counter importOptions columns.
Proof.
  induction columns as [|row columns IH]; intros Hq cftsql counter;
    cbn [step_loop]; [reflexivity|].
  rewrite !add_columnDefinition_eq, (Hq row) by (left; reflexivity).
  destruct (translate_sqliteType__ (typename_of row)); cbn [bind];
    [|reflexivity|reflexivity].
  apply IH; intros r Hr; apply Hq; right; exact Hr.
Qed.

End SynthesizerShape.

(** Property X11.  For a table in scope whose rows all have a type
    name that does not lower to [date], the call returns the whole
    statement: the opening with the schema and the quoted table, the
    clauses of the rows in the order the cursor yields them, the
    first without a comma before it, and the closing with the quoted
    server and the quoted table. *)
Theorem statement_text (q : string -> string)
    (stmt : ImportForeignSchemaStmt) (db : sqlite3) (tablename : string)
    (importOptions : SqliteTableImportOptions) (columns : sqlite3_stmt) :
  is_sqliteTableRequired stmt tablename = true ->
  sqlite3_prepare_v2 db ("PRAGMA table_info(" ++ tablename ++ ")") =
    Some columns ->
  no_date_column columns ->
  get_foreignTableCreationSql q stmt db tablename importOptions =
  Ret (Some ("CREATE FOREIGN TABLE " ++ local_schema stmt ++ "." ++
             q tablename ++ " (" ++
             column_clauses q importOptions 0 columns ++
             LF ++ ") SERVER " ++ q (server_name stmt) ++ LF ++
             "OPTIONS (table '" ++ q tablename ++ "')")).
Proof.
  intros Hscope Hprepare Hall.
  unfold get_foreignTableCreationSql, prepare_sqliteQuery, appendStringInfo.
  rewrite Hscope, Hprepare; cbn [negb].
  rewrite (step_loop_closed q importOptions columns Hall).
  change (EmptyString ++ ?x) with x.
  rewrite !string_app_assoc; reflexivity.
Qed.

Lemma statement_text_witness :
  get_foreignTableCreationSql dquote
    (import_stmt "s" "srv" FDW_IMPORT_SCHEMA_ALL [])
    (database_with [column "b" (Some "TEXT") 0 None;
                    column "a" None 1 (Some "0")]) "t1"
    {| import_notnull := true; import_default := false |} =
  Ret (Some ("CREATE FOREIGN TABLE s." ++ dquote "t1" ++ " (" ++ LF ++
             dquote "b" ++ " text ," ++ LF ++
             dquote "a" ++ " bytea  NOT NULL " ++ LF ++
             ") SERVER " ++ dquote "srv" ++ LF ++
             "OPTIONS (table '" ++ dquote "t1" ++ "')")).
Proof.
  apply (statement_text dquote
           (import_stmt "s" "srv" FDW_IMPORT_SCHEMA_ALL [])
           (database_with [column "b" (Some "TEXT") 0 None;
                           column "a" None 1 (Some "0")]) "t1"
           {| import_notnull := true; import_default := false |}
           [column "b" (Some "TEXT") 0 None; column "a" None 1 (Some "0")]).
  - reflexivity.
  - reflexivity.
  - intros row [<- | [<- | []]]; vm_compute; discriminate.
Defined.

(** Property X12.  For a table in scope whose query is prepared, a
    statement comes back exactly when no row has a type name that
    lowers to [date]. *)
Theorem statement_iff_no_date_column (q : string -> string)
    (stmt : ImportForeignSchemaStmt) (db : sqlite3) (tablename : string)
    (importOptions : SqliteTableImportOptions) (columns : sqlite3_stmt) :
  is_sqliteTableRequired stmt tablename = true ->
  sqlite3_prepare_v2 db ("PRAGMA table_info(" ++ tablename ++ ")") =
    Some columns ->
  ((exists sql,
      get_foreignTableCreationSql q stmt db tablename importOptions =
      Ret (Some sql)) <->
   no_date_column columns).
Proof.
  intros Hscope Hprepare; split.
  - intros [sql Hsql] row Hin Hdate.
    apply translate_date_name in Hdate.
    revert Hsql.
    unfold get_foreignTableCreationSql, prepare_sqliteQuery.
    rewrite Hscope, Hprepare; cbn [negb].
    rewrite (step_loop_error q columns row _ _ Hin Hdate).
    discriminate.
  - intro Hall.
    unfold get_foreignTableCreationSql, prepare_sqliteQuery.
    rewrite Hscope, Hprepare; cbn [negb].
    rewrite (step_loop_closed q importOptions columns Hall).
    eexists; reflexivity.
Qed.

Lemma statement_iff_no_date_column_witness :
  exists sql,
    get_foreignTableCreationSql dquote
      (import_stmt "s" "srv" FDW_IMPORT_SCHEMA_ALL [])
      (database_with [column "born" (Some "DateTime") 0 None]) "t1"
      {| import_notnull := true; import_default := true |} =
    Ret (Some sql).
Proof.
  apply (statement_iff_no_date_column dquote
           (import_stmt "s" "srv" FDW_IMPORT_SCHEMA_ALL [])
           (database_with [column "born" (Some "DateTime") 0 None]) "t1"
           {| import_notnull := true; import_default := true |}
           [column "born" (Some "DateTime") 0 None] eq_refl eq_refl).
  intros row [<- | []]; vm_compute; discriminate.
Defined.

(** Property X13.  For a table in scope whose query is prepared,
    the call leaves with an error exactly when some row has a type
    name that lowers to [date], and the error is then the
    classifier's for that name, whichever row it is and whatever
    rows come before it. *)
Theorem prepared_table_error_iff_date_column (q : string -> string)
    (stmt : ImportForeignSchemaStmt) (db : sqlite3) (tablename : string)
    (importOptions : SqliteTableImportOptions) (columns : sqlite3_stmt)
    (errcode : sqlstate) (errmsg : string) :
  is_sqliteTableRequired stmt tablename = true ->
  sqlite3_prepare_v2 db ("PRAGMA table_info(" ++ tablename ++ ")") =
    Some columns ->
  (get_foreignTableCreationSql q stmt db tablename importOptions =
     Ereport errcode errmsg <->
   (exists row, In row columns /\ lowered (typename_of row) = "date") /\
   errcode = ERRCODE_FDW_ERROR /\
   errmsg = "Could not handle type date from a sqlite db").
Proof.
  intros Hscope Hprepare.
  unfold get_foreignTableCreationSql, prepare_sqliteQuery.
  rewrite Hscope, Hprepare; cbn [negb].
  destruct (step_loop q _ 0 importOptions columns) as [body|c m|] eqn:E.
  - split; [discriminate|].
    intros ((row & Hin & Hdate) & _).
    rewrite (step_loop_error q columns row _ _ Hin
               (translate_date_name _ Hdate)) in E.
    discriminate E.
  - destruct (step_loop_error_inv _ _ _ _ _ _ _ E) as (row & Hin & Hrow).
    destruct (translate_error_is_date _ _ _ Hrow) as (Hdate & -> & ->).
    split.
    + intro H; injection H as <- <-.
      split; [exists row; split; assumption | split; reflexivity].
    + intros (_ & -> & ->); reflexivity.
  - split; [discriminate|].
    intros ((row & Hin & Hdate) & _).
    rewrite (step_loop_error q columns row _ _ Hin
               (translate_date_name _ Hdate)) in E.
    discriminate E.
Qed.

Lemma prepared_table_error_iff_date_column_witness :
  get_foreignTableCreationSql dquote
    (import_stmt "s" "srv" FDW_IMPORT_SCHEMA_ALL [])
    (database_with [column "id" (Some "INTEGER") 1 None;
                    column "born" (Some "Date") 0 None;
                    column "name" (Some "TEXT") 0 None]) "t1"
    {| import_notnull := true; import_default := true |} =
  Ereport ERRCODE_FDW_ERROR "Could not handle type date from a sqlite db".
Proof.
  apply (prepared_table_error_iff_date_column dquote
           (import_stmt "s" "srv" FDW_IMPORT_SCHEMA_ALL [])
           (database_with [column "id" (Some "INTEGER") 1 None;
                           column "born" (Some "Date") 0 None;
                           column "name" (Some "TEXT") 0 None]) "t1"
           {| import_notnull := true; import_default := true |}
           [column "id" (Some "INTEGER") 1 None;
            column "born" (Some "Date") 0 None;
            column "name" (Some "TEXT") 0 None]
           ERRCODE_FDW_ERROR "Could not handle type date from a sqlite db"
           eq_refl eq_refl).
  split; [|split; reflexivity].
  exists (column "born" (Some "Date") 0 None).
  split; [right; left; reflexivity | reflexivity].
Defined.

(** Property X14.  The quoting function is consulted on the table
    name, the server name and the names of the columns, and on
    nothing else: two quoting functions that agree on these give the
    same result. *)
Theorem quoting_is_asked_for_these_names_only (q1 q2 : string -> string)
    (stmt : ImportForeignSchemaStmt) (db : sqlite3) (tablename : string)
    (importOptions : SqliteTableImportOptions) :
  q1 tablename = q2 tablename ->
  q1 (server_name stmt) = q2 (server_name stmt) ->
  (forall columns row,
     sqlite3_prepare_v2 db ("PRAGMA table_info(" ++ tablename ++ ")") =
       Some columns ->
     In row columns -> q1 (ti_name row) = q2 (ti_name row)) ->
  get_foreignTableCreationSql q1 stmt db tablename importOptions =
  get_foreignTableCreationSql q2 stmt db tablename importOptions.
Proof.
  intros Htable Hserver Hcolumns.
  unfold get_foreignTableCreationSql, prepare_sqliteQuery.
  rewrite Htable, Hserver.
  destruct (is_sqliteTableRequired stmt tablename); cbn [negb];
    [|reflexivity].
  destruct (sqlite3_prepare_v2 db _) as [columns|] eqn:E;
    [|destruct (errmsg_after_close db); reflexivity].
  rewrite (step_loop_ext q1 q2 importOptions columns
             (fun row Hin => Hcolumns columns row eq_refl Hin));
    reflexivity.
Qed.

Lemma quoting_is_asked_for_these_names_only_witness :
  get_foreignTableCreationSql dquote
    (import_stmt "Sales" "srv" FDW_IMPORT_SCHEMA_ALL [])
    (database_with [column "id" (Some "INTEGER") 1 None]) "t1"
    {| import_notnull := true; import_default := true |} =
  get_foreignTableCreationSql (fun name => dquote (lower_each name))
    (import_stmt "Sales" "srv" FDW_IMPORT_SCHEMA_ALL [])
    (database_with [column "id" (Some "INTEGER") 1 None]) "t1"
    {| import_notnull := true; import_default := true |}.
Proof.
  apply (quoting_is_asked_for_these_names_only dquote
           (fun name => dquote (lower_each name))
           (import_stmt "Sales" "srv" FDW_IMPORT_SCHEMA_ALL [])
           (database_with [column "id" (Some "INTEGER") 1 None]) "t1"
           {| import_notnull := true; import_default := true |}).
  - reflexivity.
  - reflexivity.
  - intros columns row H; injection H as <-.
    intros [<- | []]; reflexivity.
Defined.

(** Property X15.  The loop over a cursor that yields one run of rows
    and then another is the loop over the first run followed by the
    loop over the second, which starts from the buffer and the count
    the first one left; an error in the first run ends both. *)
Theorem step_loop_app (q : string -> string)
    (importOptions : SqliteTableImportOptions)
    (columns1 columns2 : sqlite3_stmt) (cftsql : string) (counter : Z) :
  step_loop q cftsql counter importOptions (columns1 ++ columns2)%list =
  cftsql' <- step_loop q cftsql counter importOptions columns1 ;;
  step_loop q cftsql' (counter + Z.of_nat (List.length columns1))
    importOptions columns2.
Proof.
  revert cftsql counter.
  induction columns1 as [|row columns1 IH]; intros cftsql counter.
  - cbn [app step_loop bind List.length Z.of_nat].
    rewrite Z.add_0_r; reflexivity.
  - cbn [app step_loop].
    destruct (add_columnDefinition__ q cftsql counter importOptions row);
      cbn [bind]; [|reflexivity|reflexivity].
    rewrite IH.
    replace (counter + 1 + Z.of_nat (List.length columns1))
      with (counter + Z.of_nat (List.length (row :: columns1)))
      by (cbn [List.length]; lia).
    reflexivity.
Qed.

(** ** The source of a foreign table *)

Section TableSource.

Lemma strcmp_is_eqb (s t : string) : (strcmp s t =? 0) = String.eqb s t.
Proof.
  destruct (String.eqb s t) eqn:E.
  - apply strcmp_eqb, String.eqb_eq, E.
  - apply strcmp_eqb_false, String.eqb_neq, E.
Qed.

Lemma last_value_app (key : string) (options1 options2 : list DefElem) :
  last_value key (options1 ++ options2)%list =
  match last_value key options2 with
  | Some value => Some value
  | None => last_value key options1
  end.
Proof.
  induction options1 as [|def options1 IH]; cbn [app last_value].
  - destruct (last_value key options2); reflexivity.
  - rewrite IH; destruct (last_value key options2); reflexivity.
Qed.

(** What the loop leaves in each member: the value of the last option
    with the member's name, or what the member held before. *)
Lemma foreach_option_database (lc : list DefElem) :
  forall opt,
    database (foreach_option lc opt) =
    match last_value "database" lc with
    | Some value => Some value
    | None => database opt
    end.
Proof.
  induction lc as [|def lc IH]; intro opt; cbn [foreach_option last_value];
    [reflexivity|].
  rewrite IH; destruct (last_value "database" lc); [reflexivity|].
  unfold read_option, defGetString; rewrite !strcmp_is_eqb.
  destruct (String.eqb (defname def) "database"),
           (String.eqb (defname def) "table"); reflexivity.
Qed.

Lemma foreach_option_table (lc : list DefElem) :
  forall opt,
    table (foreach_option lc opt) =
    match last_value "table" lc with
    | Some value => Some value
    | None => table opt
    end.
Proof.
  induction lc as [|def lc IH]; intro opt; cbn [foreach_option last_value];
    [reflexivity|].
  rewrite IH; destruct (last_value "table" lc); [reflexivity|].
  unfold read_option, defGetString; rewrite !strcmp_is_eqb.
  destruct (String.eqb (defname def) "database"),
           (String.eqb (defname def) "table"); reflexivity.
Qed.

(** The two members after the loop of [get_tableSource]. *)
Lemma members_after_the_loop (catalog : pg_catalog)
    (indeterminate : SqliteTableSource) (foreigntableid : Oid) :
  let f_table := GetForeignTable catalog foreigntableid in
  let f_server := GetForeignServer catalog (serverid f_table) in
  let opt :=
    foreach_option
      (list_concat (list_concat [] (table_options f_table))
         (server_options f_server)) indeterminate in
  database opt =
    match option_in_force "database" f_table f_server with
    | Some value => Some value
    | None => database indeterminate
    end /\
  table opt =
    match option_in_force "table" f_table f_server with
    | Some value => Some value
    | None => table indeterminate
    end.
Proof.
  cbv zeta; unfold list_concat, option_in_force; cbn [app].
  rewrite foreach_option_database, foreach_option_table, !last_value_app.
  split.
  - destruct (last_value "database" (server_options _)); [reflexivity|].
    destruct (last_value "database" (table_options _)); reflexivity.
  - destruct (last_value "table" (server_options _)); [reflexivity|].
    destruct (last_value "table" (table_options _)); reflexivity.
Qed.

End TableSource.

(** Property X16.  When the options of the table and of its server
    name both [database] and [table], the source that comes back
    holds, for each, the value of the server's last option of that
    name, or else of the table's last one: an option of the server
    overrides the same option of the table.  Nothing of what the
    structure held before the loop is read. *)
Theorem table_source_from_options (catalog : pg_catalog)
    (indeterminate : SqliteTableSource) (foreigntableid : Oid)
    (db_name table_name : string) :
  let f_table := GetForeignTable catalog foreigntableid in
  let f_server := GetForeignServer catalog (serverid f_table) in
  option_in_force "database" f_table f_server = Some db_name ->
  option_in_force "table" f_table f_server = Some table_name ->
  get_tableSource catalog indeterminate foreigntableid =
  Ret {| database := Some db_name; table := Some table_name |}.
Proof.
  cbv zeta; intros Hdb Htable.
  destruct (members_after_the_loop catalog indeterminate foreigntableid)
    as [Hd Ht].
  cbv zeta in Hd, Ht; rewrite Hdb in Hd; rewrite Htable in Ht.
  unfold get_tableSource; cbv zeta.
  destruct (foreach_option _ indeterminate) as [d t]; cbn in Hd, Ht.
  subst d t; reflexivity.
Qed.

Lemma table_source_from_options_witness :
  get_tableSource
    (catalog_of
       [ {| defname := "table"; arg := "orders" |};
         {| defname := "database"; arg := "/tmp/old.db" |} ]
       [ {| defname := "database"; arg := "/srv/shop.db" |} ]
       (Some "orders_ft"))
    {| database := None; table := Some "left on the stack" |} 16384%N =
  Ret {| database := Some "/srv/shop.db"; table := Some "orders" |}.
Proof.
  exact (table_source_from_options
           (catalog_of
              [ {| defname := "table"; arg := "orders" |};
                {| defname := "database"; arg := "/tmp/old.db" |} ]
              [ {| defname := "database"; arg := "/srv/shop.db" |} ]
              (Some "orders_ft"))
           {| database := None; table := Some "left on the stack" |}
           16384%N "/srv/shop.db" "orders" eq_refl eq_refl).
Defined.



